(** * StochOPy Viewer: the logic of [stochopy/gui/gui.py]

    A shallow embedding of the callbacks of the class [StochOGUI]: input
    validation ([check_variables], [_validate_stepsize]), the [run]
    dispatcher, the animation set-up and frame updates, the click handler
    and the two export actions.

    The callbacks are methods that read and assign attributes of one
    object and call out to Tk, NumPy, matplotlib and the StochOPy solvers.
    They are embedded as computations in a state-and-exception monad over
    a record [gui] that holds the attributes, the Tk variables, NumPy's
    global random state, the files written so far and a log of the calls
    made to the outside (dialogs, timer, solver constructors and methods). *)

From Stdlib Require Import ZArith Ascii String.
From stdpp Require Import base option list strings gmap pretty.

Local Open Scope string_scope.
Local Open Scope list_scope.
Local Open Scope Z_scope.

Module StochOGUI.

(** ** Python strings (ASCII) *)

Definition is_ascii_upper (c : ascii) : bool :=
  let n := nat_of_ascii c in ((65 <=? n) && (n <=? 90))%nat.

Definition is_ascii_lower (c : ascii) : bool :=
  let n := nat_of_ascii c in ((97 <=? n) && (n <=? 122))%nat.

Definition ascii_lower (c : ascii) : ascii :=
  if is_ascii_upper c then ascii_of_nat (nat_of_ascii c + 32) else c.

Definition ascii_upper (c : ascii) : ascii :=
  if is_ascii_lower c then ascii_of_nat (nat_of_ascii c - 32) else c.

(** [s.lower()] and [s.upper()]. *)
Fixpoint lower (s : string) : string :=
  match s with
  | EmptyString => EmptyString
  | String c r => String (ascii_lower c) (lower r)
  end.

Fixpoint upper (s : string) : string :=
  match s with
  | EmptyString => EmptyString
  | String c r => String (ascii_upper c) (upper r)
  end.

(** The characters [str.split()] treats as separators. *)
Definition is_space (c : ascii) : bool :=
  let n := nat_of_ascii c in
  ((9 <=? n) && (n <=? 13) || (28 <=? n) && (n <=? 32))%nat.

(** [s.split()]: the maximal runs of non-blank characters, in order.
    [cur] is the run being read, reversed. *)
Fixpoint split_go (cur : list ascii) (s : string) : list string :=
  let flush (k : list string) :=
    match cur with
    | [] => k
    | _ => string_of_list_ascii (rev cur) :: k
    end in
  match s with
  | EmptyString => flush []
  | String c r =>
      if is_space c then flush (split_go [] r) else split_go (c :: cur) r
  end.

Definition split (s : string) : list string := split_go [] s.
Arguments split _ : simpl never.

(** [sep.join(parts)]. *)
Fixpoint join (sep : string) (parts : list string) : string :=
  match parts with
  | [] => ""
  | [p] => p
  | p :: rest => p +:+ sep +:+ join sep rest
  end.

(** ** Exceptions and results *)

Inductive exn :=
| KeyError
| ValueError
| AttributeError
| IndexError
| TypeError
| UnboundLocalError.

Inductive result (A : Type) :=
| Ok (a : A)
| Raise (e : exn).
Arguments Ok {A} _.
Arguments Raise {A} _.

#[export] Instance result_ret : MRet result := λ A a, Ok a.
#[export] Instance result_bind : MBind result := λ A B f r,
  match r with
  | Ok a => f a
  | Raise e => Raise e
  end.

(** Sequencing, with the first computation elaborated first. *)
Definition and_then {M : Type → Type} `{MBind M} {A B}
    (m : M A) (f : A → M B) : M B := mbind f m.

Declare Scope py_scope.
Delimit Scope py_scope with py.
Notation "x ← y ; z" := (and_then y (λ x, z))
  (at level 20, y at level 100, z at level 200, only parsing) : py_scope.
Notation "' x ← y ; z" := (and_then y (λ x, z))
  (at level 20, x pattern, y at level 100, z at level 200, only parsing)
  : py_scope.
Notation "x ;; z" := (and_then x (λ _, z))
  (at level 100, z at level 200, only parsing, right associativity)
  : py_scope.
Local Open Scope py_scope.

(** A looked-up value, raising [e] when it is absent. *)
Definition or_raise {A} (e : exn) (o : option A) : result A :=
  match o with
  | Some a => Ok a
  | None => Raise e
  end.

(** A Python [for] loop over [xs] that rebinds an accumulator. *)
Fixpoint for_each {A B} (body : B → A → result B) (xs : list A) (acc : B)
  : result B :=
  match xs with
  | [] => Ok acc
  | x :: rest => acc' ← body acc x; for_each body rest acc'
  end.

(** ** NumPy arrays

    An array is its shape and its buffer in C order. *)

Record ndarray (A : Type) := NDArray { shape : list nat; data : list A }.
Arguments NDArray {A} _ _.
Arguments shape {A} _.
Arguments data {A} _.

Definition size_of (sh : list nat) : nat := foldr Nat.mul 1%nat sh.

Definition wf_ndarray {A} (a : ndarray A) : Prop :=
  length (data a) = size_of (shape a).

(** [np.array(xs)] of a list of scalars. *)
Definition np_array {A} (xs : list A) : ndarray A := NDArray [length xs] xs.

(** [len(a)]. *)
Definition len {A} (a : ndarray A) : result nat :=
  or_raise TypeError (head (shape a)).

(** [a.shape[k]] and [a.shape[-1]]. *)
Definition shape_at {A} (a : ndarray A) (k : nat) : result nat :=
  or_raise IndexError (shape a !! k).

Definition shape_last {A} (a : ndarray A) : result nat :=
  or_raise IndexError (last (shape a)).

(** [a[j]]: the [j]-th item along the first axis. *)
Definition index_axis0 {A} (a : ndarray A) (j : nat) : result (ndarray A) :=
  match shape a with
  | d :: rest =>
      if decide (j < d)%nat then
        let r := size_of rest in
        Ok (NDArray rest (take r (drop (j * r) (data a))))
      else Raise IndexError
  | [] => Raise IndexError
  end.

(** [a[:k]]: the first [k] items along the first axis (all of them when
    there are fewer). *)
Definition slice_axis0 {A} (a : ndarray A) (k : nat) : result (ndarray A) :=
  match shape a with
  | d :: rest =>
      let k' := Nat.min k d in
      Ok (NDArray (k' :: rest) (take (k' * size_of rest) (data a)))
  | [] => Raise IndexError
  end.

(** [a[:, i]]: the [i]-th item along the second axis, for every item of
    the first. *)
Definition index_axis1 {A} (a : ndarray A) (i : nat) : result (ndarray A) :=
  match shape a with
  | m :: n :: rest =>
      if decide (i < n)%nat then
        let r := size_of rest in
        Ok (NDArray (m :: rest)
              (concat (map (λ k, take r (drop ((k * n + i) * r) (data a)))
                           (seq 0 m))))
      else Raise IndexError
  | _ => Raise IndexError
  end.

(** ** External collaborators

    The benchmark-function provider and the solver classes are imported
    from the rest of the package, the numerics from NumPy and Python.
    They are black boxes here: a call to one of them returns, and what it
    returns is left open. *)

(** [BenchmarkFunction(func, n_dim = n)]. *)
Record benchmark := BenchmarkFunction { bf_func : string; bf_n_dim : Z }.

(** Arguments of the [MonteCarlo] constructor (the benchmark's keyword
    arguments, [max_iter], [clip]) and of its [sample] method. *)
Record MonteCarlo_args := MonteCarlo_new
  { mc_bf : benchmark; mc_max_iter : Z; mc_clip : bool }.

Record sample_args (F : Type) := Sample_call
  { sa_sampler : string; sa_stepsize : F; sa_n_leap : Z }.
Arguments Sample_call {F} _ _ _.
Arguments sa_sampler {F} _.
Arguments sa_stepsize {F} _.
Arguments sa_n_leap {F} _.

(** Arguments of the [Evolutionary] constructor (the benchmark's keyword
    arguments, [popsize], [max_iter], [clip]) and of its [optimize]
    method. *)
Record Evolutionary_args := Evolutionary_new
  { ea_bf : benchmark; ea_popsize : Z; ea_max_iter : Z; ea_clip : bool }.

Record optimize_args (F : Type) := Optimize_call
  { oa_solver : string; oa_snap : bool;
    oa_w : F; oa_c1 : F; oa_c2 : F; oa_gamma : F;
    oa_CR : F; oa_F : F; oa_sigma : F; oa_mu_perc : F }.
Arguments Optimize_call {F} _ _ _ _ _ _ _ _ _ _.
Arguments oa_solver {F} _.
Arguments oa_snap {F} _.

(** What the GUI reads back from a solver object after [sample] or
    [optimize] has returned. *)
Record solver_obj (F : Type) := SolverObj
  { _solver : string; models : ndarray F; energy : ndarray F }.
Arguments SolverObj {F} _ _ _.
Arguments _solver {F} _.
Arguments models {F} _.
Arguments energy {F} _.

Class Collaborators := {
  (** Python's [float], with its [<]. *)
  float : Type;
  flt : float → float → bool;
  (** [float(s)] of a string; [None] stands for the [ValueError] it
      raises when [s] does not parse. *)
  py_float : string → option float;
  (** [np.log10] under NumPy's default error state, where a zero or
      negative argument gives a warning and a non-finite result. *)
  np_log10 : float → float;
  (** The reduction behind [ndarray.min()] on a non-empty buffer. *)
  np_min : list float → float;
  (** NumPy's global random state, [np.random.seed] and
      [np.random.randint(high)]. *)
  rng : Type;
  np_random_seed : Z → rng;
  np_random_randint : Z → rng → Z * rng;
  (** The two solver entry points: constructor and method arguments and
      the random state in, solver object and random state out. *)
  MonteCarlo_sample :
    MonteCarlo_args → sample_args float → rng → solver_obj float * rng;
  Evolutionary_optimize :
    Evolutionary_args → optimize_args float → rng → solver_obj float * rng
}.

Section GUI.
Context `{C : Collaborators}.

(** [a.min()]. *)
Definition ndarray_min (a : ndarray float) : result float :=
  match data a with
  | [] => Raise ValueError
  | _ => Ok (np_min (data a))
  end.

(** Python's [min(a, b)]: [b] when [b < a], else [a]. *)
Definition py_min (a b : float) : float := if flt b a then b else a.

(** ** Class attributes *)

Definition MAX_SEED : Z := 999999.
Definition FUNCOPT : list string :=
  [ "Ackley"; "Quartic"; "Quartic noise"; "Rastrigin"; "Rosenbrock";
    "Sphere"; "Styblinski-Tang" ].
Definition EAOPT : list string := [ "CPSO"; "PSO"; "DE"; "CMAES" ].
Definition MCOPT : list string := [ "Hastings"; "Hamiltonian" ].
Definition MIN_POPSIZE : gmap string Z :=
  {[ "cpso" := 2; "pso" := 2; "de" := 4; "cmaes" := 4 ]}.

(** ** State *)

(** The Tk variables of [define_variables], by the value [get()]
    returns: the integer, float, string or boolean the widget text
    stands for. *)
Record tkvars := TkVars {
  solver_name : string;
  function : string;
  popsize : Z;
  max_iter : Z;
  interval : Z;
  stepsize : float;
  log_stepsize : float;
  n_leap : Z;
  w : float;
  c1 : float;
  c2 : float;
  gamma : float;
  CR : float;
  F : float;
  sigma : float;
  mu_perc : float;
  seed : Z;
  fix_seed : bool;
  clip : bool
}.

(** Data handed to a matplotlib line. *)
Inductive plotdata :=
| NoData
| Values (a : ndarray float)
| Linspace (start stop : Z) (num : Z).

Record line2d := Line2D
  { linestyle : string; xdata : plotdata; ydata : plotdata }.

(** What [animate] draws on the cleared figure. *)
Record figure := Figure {
  fig_function : benchmark;
  fig_curve : plotdata * plotdata;
  fig_xlim : Z * Z;
  fig_yscale : string;
  fig_xlabel : string;
  fig_ylabel : string
}.

Inductive update_func := update_monte_carlo | update_evolutionary.

(** [animation.FuncAnimation(fig, func, fargs = (models, gfit), ...)]. *)
Record animation := FuncAnimation {
  anim_func : update_func;
  anim_models : ndarray float;
  anim_gfit : ndarray float;
  anim_frames : nat;
  anim_interval : Z;
  anim_repeat : bool;
  anim_blit : bool
}.

(** Calls to the outside, in the order they are made. *)
Inductive event :=
| showerror (title message : string)
| asksaveasfilename (title : string)
| randint_call (high : Z)
| seed_call (n : Z)
| BenchmarkFunction_call (b : benchmark)
| MonteCarlo_call (a : MonteCarlo_args)
| sample_call (a : sample_args float) (g : rng)
| Evolutionary_call (a : Evolutionary_args)
| optimize_call (a : optimize_args float) (g : rng)
| timer_stop
| timer_start
| fig_clear.

(** Attributes that do not exist until they are first assigned are
    options; reading an absent one raises [AttributeError].  A file is
    the list of objects pickled into it. *)
Record gui := GUI {
  vars : tkvars;
  first_run : bool;
  anim_running : bool;
  bf : option benchmark;
  solver : option (solver_obj float);
  fig : option figure;
  scatplot : option line2d;
  enerplot : option line2d;
  anim : option animation;
  np_random : rng;
  files : gmap string (list (ndarray float));
  log : list event
}.

Definition set_vars (v : tkvars) (s : gui) : gui :=
  GUI v (first_run s) (anim_running s) (bf s) (solver s) (fig s)
      (scatplot s) (enerplot s) (anim s) (np_random s) (files s) (log s).
Definition set_first_run (b : bool) (s : gui) : gui :=
  GUI (vars s) b (anim_running s) (bf s) (solver s) (fig s)
      (scatplot s) (enerplot s) (anim s) (np_random s) (files s) (log s).
Definition set_anim_running (b : bool) (s : gui) : gui :=
  GUI (vars s) (first_run s) b (bf s) (solver s) (fig s)
      (scatplot s) (enerplot s) (anim s) (np_random s) (files s) (log s).
Definition set_bf (b : benchmark) (s : gui) : gui :=
  GUI (vars s) (first_run s) (anim_running s) (Some b) (solver s) (fig s)
      (scatplot s) (enerplot s) (anim s) (np_random s) (files s) (log s).
Definition set_solver (o : solver_obj float) (s : gui) : gui :=
  GUI (vars s) (first_run s) (anim_running s) (bf s) (Some o) (fig s)
      (scatplot s) (enerplot s) (anim s) (np_random s) (files s) (log s).
Definition set_fig (f : option figure) (s : gui) : gui :=
  GUI (vars s) (first_run s) (anim_running s) (bf s) (solver s) f
      (scatplot s) (enerplot s) (anim s) (np_random s) (files s) (log s).
Definition set_scatplot (l : line2d) (s : gui) : gui :=
  GUI (vars s) (first_run s) (anim_running s) (bf s) (solver s) (fig s)
      (Some l) (enerplot s) (anim s) (np_random s) (files s) (log s).
Definition set_enerplot (l : line2d) (s : gui) : gui :=
  GUI (vars s) (first_run s) (anim_running s) (bf s) (solver s) (fig s)
      (scatplot s) (Some l) (anim s) (np_random s) (files s) (log s).
Definition set_anim (a : animation) (s : gui) : gui :=
  GUI (vars s) (first_run s) (anim_running s) (bf s) (solver s) (fig s)
      (scatplot s) (enerplot s) (Some a) (np_random s) (files s) (log s).
Definition set_np_random (g : rng) (s : gui) : gui :=
  GUI (vars s) (first_run s) (anim_running s) (bf s) (solver s) (fig s)
      (scatplot s) (enerplot s) (anim s) g (files s) (log s).
Definition set_files (fs : gmap string (list (ndarray float))) (s : gui)
  : gui :=
  GUI (vars s) (first_run s) (anim_running s) (bf s) (solver s) (fig s)
      (scatplot s) (enerplot s) (anim s) (np_random s) fs (log s).
Definition set_log (l : list event) (s : gui) : gui :=
  GUI (vars s) (first_run s) (anim_running s) (bf s) (solver s) (fig s)
      (scatplot s) (enerplot s) (anim s) (np_random s) (files s) l.

(** [self.seed.set(n)] and [self.log_stepsize.set(x)]. *)
Definition tk_set_seed (n : Z) (v : tkvars) : tkvars :=
  TkVars (solver_name v) (function v) (popsize v) (max_iter v) (interval v)
         (stepsize v) (log_stepsize v) (n_leap v) (w v) (c1 v) (c2 v)
         (gamma v) (CR v) (F v) (sigma v) (mu_perc v) n (fix_seed v) (clip v).
Definition tk_set_log_stepsize (x : float) (v : tkvars) : tkvars :=
  TkVars (solver_name v) (function v) (popsize v) (max_iter v) (interval v)
         (stepsize v) x (n_leap v) (w v) (c1 v) (c2 v)
         (gamma v) (CR v) (F v) (sigma v) (mu_perc v) (seed v) (fix_seed v)
         (clip v).

(** The object as [__init__] leaves it, with the Tk variables at [v]:
    the class attributes [anim_running = False] and [first_run = True],
    and no solver, plot or animation yet. *)
Definition fresh (v : tkvars) (g : rng)
    (fs : gmap string (list (ndarray float))) : gui :=
  GUI v true false None None None None None None g fs [].

(** ** The monad of the callbacks *)

Definition M (A : Type) : Type := gui → result A * gui.

#[local] Instance M_ret : MRet M := λ A a s, (Ok a, s).
#[local] Instance M_bind : MBind M := λ A B f m s,
  match m s with
  | (Ok a, s') => f a s'
  | (Raise e, s') => (Raise e, s')
  end.

Definition gets {A} (f : gui → A) : M A := λ s, (Ok (f s), s).
Definition modify (f : gui → gui) : M unit := λ s, (Ok tt, f s).
Definition lift {A} (r : result A) : M A := λ s, (r, s).
Definition tell (e : event) : M unit :=
  modify (λ s, set_log (log s ++ [e])%list s).

(** Reading [self.x] for an attribute that may not exist yet. *)
Definition get_attr {A} (f : gui → option A) : M A :=
  λ s, (or_raise AttributeError (f s), s).

(** [try: body except E: handler], where [handles e] says whether the
    clause matches [e]. *)
Definition try_except {A} (body : M A) (handles : exn → bool)
    (handler : M A) : M A := λ s,
  match body s with
  | (Ok a, s') => (Ok a, s')
  | (Raise e, s') => if handles e then handler s' else (Raise e, s')
  end.

Definition is_ValueError (e : exn) : bool :=
  match e with ValueError => true | _ => false end.

(** The state once an error dialog with message [msg] has been shown. *)
Definition error_shown (msg : string) (s : gui) : gui :=
  set_log (log s ++ [showerror "Error" msg])%list s.

(** The state once the save dialog titled [title] has been shown. *)
Definition asked (title : string) (s : gui) : gui :=
  set_log (log s ++ [asksaveasfilename title])%list s.

(** ** Validation *)

(** The text ["For %s, population size should be greater than %d."]
    filled with [name] and [least - 1]. *)
Definition popsize_message (name : string) (least : Z) : string :=
  "For " +:+ name +:+ ", population size should be greater than "
  +:+ pretty (least - 1) +:+ ".".

(** [check_variables]. *)
Definition check_variables : M bool :=
  name ← gets (λ s, lower (solver_name (vars s)));
  if bool_decide (upper name ∈ EAOPT) then
    size ← gets (λ s, popsize (vars s));
    least ← lift (or_raise KeyError (MIN_POPSIZE !! name));
    if bool_decide (size < least) then
      least' ← lift (or_raise KeyError (MIN_POPSIZE !! name));
      tell (showerror "Error" (popsize_message (upper name) least'));;
      mret false
    else mret true
  else mret true.

(** [_validate_stepsize], the validation command of the step-size entry;
    [val] is the text the entry would hold after the keystroke. *)
Definition _validate_stepsize (val : string) : M bool :=
  try_except
    (x ← lift (or_raise ValueError (py_float val));
     modify (λ s, set_vars (tk_set_log_stepsize (np_log10 x) (vars s)) s))
    is_ValueError
    (mret tt);;
  mret true.

(** [_check_run]. *)
Definition _check_run : M bool :=
  fr ← gets first_run;
  if fr then
    tell (showerror "Error" "No optimization performed yet.");;
    mret false
  else mret true.

(** ** Animation *)

(** [models[0, :i]] and [models[1, :i]] are [models[j][:i]]. *)
Definition row_prefix (a : ndarray float) (j i : nat)
  : result (ndarray float) :=
  r ← index_axis0 a j; slice_axis0 r i.

(** [models[0, :, i]] and [models[1, :, i]] are [models[j][:, i]]. *)
Definition row_column (a : ndarray float) (j i : nat)
  : result (ndarray float) :=
  r ← index_axis0 a j; index_axis1 r i.

(** The two lines [set_xdata] and [set_ydata] of a frame update, on
    [self.enerplot]. *)
Definition update_enerplot (i : nat) (gfit : ndarray float) : M unit :=
  l ← get_attr enerplot;
  modify (set_enerplot
            (Line2D (linestyle l)
                    (Linspace 1 (Z.of_nat i + 1) (Z.of_nat i + 1)) (ydata l)));;
  l ← get_attr enerplot;
  y ← lift (slice_axis0 gfit (i + 1));
  modify (set_enerplot (Line2D (linestyle l) (xdata l) (Values y))).

(** [_update_monte_carlo(i, models, gfit)]; the returned pair of artists
    is the two attributes. *)
Definition _update_monte_carlo (i : nat) (models gfit : ndarray float)
  : M unit :=
  l ← get_attr scatplot;
  x ← lift (row_prefix models 0 i);
  y ← lift (row_prefix models 1 i);
  modify (set_scatplot (Line2D (linestyle l) (Values x) (Values y)));;
  update_enerplot i gfit.

(** [_update_evolutionary(i, models, gfit)]. *)
Definition _update_evolutionary (i : nat) (models gfit : ndarray float)
  : M unit :=
  l ← get_attr scatplot;
  x ← lift (row_column models 0 i);
  y ← lift (row_column models 1 i);
  modify (set_scatplot (Line2D (linestyle l) (Values x) (Values y)));;
  update_enerplot i gfit.

(** [energy[:, i].min()]. *)
Definition column_min (energy : ndarray float) (i : nat) : result float :=
  c ← index_axis1 energy i; ndarray_min c.

(** [_gfit(energy)]: the loop appends to the Python list [gfit], which
    [np.array] then copies. *)
Definition _gfit (energy : ndarray float) : result (ndarray float) :=
  m0 ← column_min energy 0;
  n ← shape_at energy 1;
  gfit ← for_each
    (λ gfit i,
       prev ← or_raise IndexError (gfit !! (i - 1)%nat);
       mi ← column_min energy i;
       Ok (gfit ++ [py_min prev mi])%list)
    (seq 1 (n - 1)) [m0];
  Ok (np_array gfit).

(** The entries of column [i] of a matrix, top to bottom: the buffer of
    [energy[:, i]]. *)
Definition column (energy : ndarray float) (i : nat) : list float :=
  match index_axis1 energy i with
  | Ok c => data c
  | Raise _ => []
  end.

Definition MC_NAMES : list string := [ "hastings"; "hamiltonian" ].
Definition EA_NAMES : list string := [ "cpso"; "pso"; "de"; "cmaes" ].

(** [animate(interval, yscale)], with [repeat] at its default [True];
    the parameters [nx], [ny] and [n_levels] are not used by the body. *)
Definition animate (interval : Z) (yscale : string) : M unit :=
  running ← gets anim_running;
  (if running then _ ← get_attr anim; tell timer_stop else mret tt);;
  tell fig_clear;; modify (set_fig None);;
  sv ← get_attr solver;
  let models := models sv in
  '(func, gfit, style, xlabel, ylabel) ←
    (if bool_decide (_solver sv ∈ MC_NAMES) then
       mret (update_monte_carlo, energy sv, "--", "Sample number", "Fitness")
     else if bool_decide (_solver sv ∈ EA_NAMES) then
       g ← lift (_gfit (energy sv));
       mret (update_evolutionary, g, "none", "Iteration number",
             "Global best fitness")
     else lift (Raise UnboundLocalError));
  n ← lift (len gfit);
  let max_iter := Z.of_nat n in
  let it := Linspace 1 max_iter max_iter in
  b ← get_attr bf;
  modify (set_scatplot (Line2D style NoData NoData));;
  modify (set_enerplot (Line2D "-" NoData NoData));;
  modify (set_fig
            (Some (Figure b (it, Values gfit) (1, max_iter) yscale
                          xlabel ylabel)));;
  modify (set_anim_running true);;
  frames ← lift (shape_last models);
  modify (set_anim
            (FuncAnimation func models gfit frames interval true true)).

(** One callback of the animation timer, for frame [i]: matplotlib
    calls [func(i, *fargs)]. *)
Definition frame (i : nat) : M unit :=
  a ← get_attr anim;
  match anim_func a with
  | update_monte_carlo => _update_monte_carlo i (anim_models a) (anim_gfit a)
  | update_evolutionary => _update_evolutionary i (anim_models a) (anim_gfit a)
  end.

(** [_onClick(event)]. *)
Definition _onClick : M unit :=
  fr ← gets first_run;
  if negb fr then
    running ← gets anim_running;
    if running then
      _ ← get_attr anim; tell timer_stop;;
      modify (set_anim_running false)
    else
      _ ← get_attr anim; tell timer_start;;
      modify (set_anim_running true)
  else mret tt.

(** ** Running a solver *)

(** [run].  The solver object is looked at only once its [sample] or
    [optimize] method has returned, so the constructor and the method,
    logged as two calls, assign [self.solver] in one step. *)
Definition run : M unit :=
  ok ← check_variables;
  if ok then
    fr ← gets first_run;
    (if fr then modify (set_first_run false) else mret tt);;
    fixed ← gets (λ s, fix_seed (vars s));
    (if negb fixed then
       g ← gets np_random;
       tell (randint_call MAX_SEED);;
       let '(n, g') := np_random_randint MAX_SEED g in
       modify (set_np_random g');;
       modify (λ s, set_vars (tk_set_seed n (vars s)) s)
     else mret tt);;
    n ← gets (λ s, seed (vars s));
    tell (seed_call n);;
    modify (set_np_random (np_random_seed n));;
    fname ← gets (λ s, function (vars s));
    let func := lower (join "_" (split fname)) in
    let b := BenchmarkFunction func 2 in
    tell (BenchmarkFunction_call b);;
    modify (set_bf b);;
    name ← gets (λ s, lower (solver_name (vars s)));
    (if bool_decide (name ∈ MC_NAMES) then
       b ← get_attr bf;
       v ← gets vars;
       let ctor := MonteCarlo_new b (max_iter v) (clip v) in
       tell (MonteCarlo_call ctor);;
       v ← gets vars;
       let args := Sample_call name (stepsize v) (n_leap v) in
       g ← gets np_random;
       tell (sample_call args g);;
       let '(o, g') := MonteCarlo_sample ctor args g in
       modify (set_np_random g');;
       modify (set_solver o)
     else if bool_decide (name ∈ EA_NAMES) then
       b ← get_attr bf;
       v ← gets vars;
       let ctor := Evolutionary_new b (popsize v) (max_iter v) (clip v) in
       tell (Evolutionary_call ctor);;
       v ← gets vars;
       let args := Optimize_call name true (w v) (c1 v) (c2 v) (gamma v)
                                 (CR v) (F v) (sigma v) (mu_perc v) in
       g ← gets np_random;
       tell (optimize_call args g);;
       let '(o, g') := Evolutionary_optimize ctor args g in
       modify (set_np_random g');;
       modify (set_solver o)
     else mret tt);;
    delay ← gets (λ s, interval (vars s));
    animate delay "log"
  else mret tt.

(** ** Export *)

(** [open(filename, "wb")] creates or truncates the file. *)
Definition open_wb (filename : string) : M unit :=
  modify (λ s, set_files (<[filename := []]> (files s)) s).

(** [pickle.dump(obj, f)] on the file opened as [filename]. *)
Definition pickle_dump (obj : ndarray float) (filename : string) : M unit :=
  modify (λ s, set_files (alter (λ c, c ++ [obj])%list filename (files s)) s).

(** [export_models]; [chosen] is what the save dialog returns if it is
    shown (the empty string when the user cancels). *)
Definition export_models (chosen : string) : M unit :=
  ok ← _check_run;
  if ok then
    tell (asksaveasfilename "Export models");;
    let filename := chosen in
    if bool_decide (0 < String.length filename)%nat then
      open_wb filename;;
      sv ← get_attr solver;
      pickle_dump (models sv) filename
    else mret tt
  else mret tt.

(** [export_fitness]. *)
Definition export_fitness (chosen : string) : M unit :=
  ok ← _check_run;
  if ok then
    tell (asksaveasfilename "Export fitness");;
    let filename := chosen in
    if bool_decide (0 < String.length filename)%nat then
      open_wb filename;;
      sv ← get_attr solver;
      pickle_dump (energy sv) filename
    else mret tt
  else mret tt.

(** ** What a run hands to the collaborators

    The arguments of the calls in [run], as functions of the state the
    run starts from, for stating its effect. *)

(** The seed in use: the seed variable when the box is checked, a fresh
    draw otherwise. *)
Definition run_seed (s : gui) : Z :=
  if fix_seed (vars s) then seed (vars s)
  else (np_random_randint MAX_SEED (np_random s)).1.

Definition run_benchmark (v : tkvars) : benchmark :=
  BenchmarkFunction (lower (join "_" (split (function v)))) 2.

Definition run_MonteCarlo (v : tkvars) : MonteCarlo_args :=
  MonteCarlo_new (run_benchmark v) (max_iter v) (clip v).

Definition run_sample (v : tkvars) : sample_args float :=
  Sample_call (lower (solver_name v)) (stepsize v) (n_leap v).

Definition run_Evolutionary (v : tkvars) : Evolutionary_args :=
  Evolutionary_new (run_benchmark v) (popsize v) (max_iter v) (clip v).

Definition run_optimize (v : tkvars) : optimize_args float :=
  Optimize_call (lower (solver_name v)) true (w v) (c1 v) (c2 v) (gamma v)
                (CR v) (F v) (sigma v) (mu_perc v).

(** The solver calls of a run and the solver object it leaves. *)
Definition run_solved (s : gui) : option (solver_obj float) * list event :=
  let v := vars s in
  let g := np_random_seed (run_seed s) in
  if bool_decide (lower (solver_name v) ∈ MC_NAMES) then
    (Some (MonteCarlo_sample (run_MonteCarlo v) (run_sample v) g).1,
     [MonteCarlo_call (run_MonteCarlo v); sample_call (run_sample v) g])
  else if bool_decide (lower (solver_name v) ∈ EA_NAMES) then
    (Some (Evolutionary_optimize (run_Evolutionary v) (run_optimize v) g).1,
     [Evolutionary_call (run_Evolutionary v);
      optimize_call (run_optimize v) g])
  else (solver s, []).

(** The calls that invoke a solver method. *)
Definition is_solve (e : event) : bool :=
  match e with
  | sample_call _ _ | optimize_call _ _ => true
  | _ => false
  end.

(** The random state a solver method is invoked from. *)
Definition rng_of (e : event) : option rng :=
  match e with
  | sample_call _ g | optimize_call _ g => Some g
  | _ => None
  end.

(** ** Sessions

    What the user can do once the window is up: press Run, click on the
    canvas, pick one of the two export entries and answer the save
    dialog, type in the step-size entry, let the animation timer fire,
    or change the widgets (which sets the Tk variables). *)




(** The calls that construct or invoke a solver. *)
Definition is_solver_call (e : event) : bool :=
  match e with
  | MonteCarlo_call _ | sample_call _ _
  | Evolutionary_call _ | optimize_call _ _ => true
  | _ => false
  end.

(** The calls a callback makes from state [s]: what it appends to the
    log. *)
Definition calls {A} (m : M A) (s : gui) : list event :=
  drop (length (log s)) (log (m s).2).

End GUI.

(** ** An interpretation over the integers

    The collaborators with integers for floats, to run the callbacks on
    concrete inputs. *)

Definition digit_value (c : ascii) : option Z :=
  let n := nat_of_ascii c in
  if ((48 <=? n) && (n <=? 57))%nat then Some (Z.of_nat (n - 48)) else None.

Fixpoint digits_value (acc : Z) (s : string) : option Z :=
  match s with
  | EmptyString => Some acc
  | String c r =>
      match digit_value c with
      | Some d => digits_value (10 * acc + d) r
      | None => None
      end
  end.

(** Decimal integer literals, with an optional minus sign. *)
Definition int_literal (s : string) : option Z :=
  match s with
  | EmptyString => None
  | String "-" (String c r) => Z.opp <$> digits_value 0 (String c r)
  | _ => digits_value 0 s
  end.

Definition iota (from : Z) (n : nat) : list Z :=
  map (λ k, from + Z.of_nat k) (seq 0 n).

#[export] Instance integer_world : Collaborators := {|
  float := Z;
  flt := Z.ltb;
  py_float := int_literal;
  np_log10 := Z.log2;
  np_min := λ xs, match xs with [] => 0 | x :: r => foldr Z.min x r end;
  rng := Z;
  np_random_seed := λ n, n;
  np_random_randint := λ high g, (g `mod` high, (g * 75 + 74) `mod` 65537);
  MonteCarlo_sample := λ ctor args g,
    let n := Z.to_nat (mc_max_iter ctor) in
    (SolverObj (sa_sampler args)
               (NDArray [2%nat; n] (iota g (2 * n)))
               (NDArray [n] (rev (iota g n))),
     g + 1);
  Evolutionary_optimize := λ ctor args g,
    let p := Z.to_nat (ea_popsize ctor) in
    let n := Z.to_nat (ea_max_iter ctor) in
    (SolverObj (oa_solver args)
               (NDArray [2%nat; p; n] (iota g (2 * p * n)))
               (NDArray [p; n] (rev (iota g (p * n)))),
     g + 1)
|}.

(** The Tk variables as [init_variables] sets them, scaled to integers,
    with the solver, population size and seed check box given. *)
Definition sample_vars (name : string) (size : Z) (fixed : bool)
  : @tkvars integer_world :=
  TkVars name "Rosenbrock" size 3 60 1 0 10 72 149 149 125 50 100 100 50 42
         fixed false.

Definition sample_gui (name : string) (size : Z) (fixed : bool)
  : @gui integer_world :=
  fresh (sample_vars name size fixed) 7 ∅.

(** The state after a first DE run with four individuals and the seed
    fixed. *)
Definition sample_ran : @gui integer_world :=
  (run (sample_gui "DE" 4 true)).2.

(** A fitness matrix with two individuals and three iterations, and one
    with three iterations and no individual. *)
Definition sample_energy : ndarray (@float integer_world) :=
  NDArray [2; 3]%nat [5; 3; 9;
                      4; 7; 1].

Definition empty_energy : ndarray (@float integer_world) :=
  NDArray [0; 3]%nat [].

(** ** Further notions for stating properties *)

Section Notions.
Context `{C : Collaborators}.











End Notions.

(** A first run on a name that is no solver's, which raises, and the
    state it leaves. *)
Definition sample_failed : @gui integer_world :=
  (run (sample_gui "Simplex" 4 true)).2.




(** A new window beside a file an earlier session exported, and the
    state its first run leaves when that run raises. *)
Definition sample_beside : @gui integer_world :=
  fresh (sample_vars "Simplex" 4 true) 7 {[ "old.pickle" := [sample_energy] ]}.

Definition sample_beside_failed : @gui integer_world :=
  (run sample_beside).2.

(** ** Properties *)

Section Properties.
Context `{C : Collaborators}.
Implicit Types (s : gui) (val chosen : string).

Ltac run_monad :=
  unfold tell;
  unfold and_then, mbind, mret, M_bind, M_ret, result_bind, result_ret,
    gets, modify, lift, get_attr, try_except; cbn.

Lemma check_variables_unfold s :
  check_variables s =
    let name := lower (solver_name (vars s)) in
    if bool_decide (upper name ∈ EAOPT) then
      match MIN_POPSIZE !! name with
      | Some least =>
          if bool_decide (popsize (vars s) < least) then
            (Ok false,
             error_shown (popsize_message (upper name) least) s)
          else (Ok true, s)
      | None => (Raise KeyError, s)
      end
    else (Ok true, s).
Proof.
  unfold check_variables. run_monad.
  destruct (bool_decide (upper _ ∈ EAOPT)); [|done].
  destruct (MIN_POPSIZE !! _) as [least|]; cbn; [|done].
  by destruct (bool_decide (_ < least)).
Qed.

Lemma calls_app {A} (m : M A) s evs :
  log (m s).2 = log s ++ evs → calls m s = evs.
Proof. unfold calls. intros ->. by rewrite drop_app_length. Qed.

Lemma check_variables_cases s :
  check_variables s = (Ok true, s)
  ∨ (∃ msg, check_variables s = (Ok false, error_shown msg s))
  ∨ check_variables s = (Raise KeyError, s).
Proof.
  rewrite check_variables_unfold. cbn.
  repeat case_match; eauto.
Qed.

Lemma run_rejected s :
  (check_variables s).1 ≠ Ok true → (run s).2 = (check_variables s).2.
Proof.
  unfold run. run_monad.
  by destruct (check_variables s) as [[[]|e] s'].
Qed.

Lemma run_rejected_false s :
  (check_variables s).1 = Ok false → run s = (Ok tt, (check_variables s).2).
Proof.
  unfold run. run_monad.
  destruct (check_variables s) as [[[]|e] s']; cbn; congruence.
Qed.

(** What [animate] leaves alone, whether it returns or raises, and
    what it may log. *)
Lemma animate_frame delay yscale s :
  let s' := (animate delay yscale s).2 in
  vars s' = vars s ∧ first_run s' = first_run s ∧ bf s' = bf s
  ∧ solver s' = solver s ∧ np_random s' = np_random s
  ∧ files s' = files s
  ∧ ∃ evs, log s' = log s ++ evs
           ∧ Forall (λ e, e = timer_stop ∨ e = fig_clear) evs.
Proof.
  unfold animate. run_monad.
  repeat (case_match; cbn; simplify_eq/=);
    repeat split; try done;
    (eexists; split;
       [first [symmetry; apply app_nil_r
              | rewrite <- ?app_assoc; reflexivity]|]);
    repeat first [apply Forall_nil_2 | apply Forall_cons_2; [by auto|]].
Qed.

(** A run that passes validation, up to the call of [animate]: the
    state [animate] starts from. *)
Lemma run_accepted s :
  check_variables s = (Ok true, s) →
  let v := vars s in
  let n := run_seed s in
  let g := np_random_seed n in
  let pre := if fix_seed v then [] else [randint_call MAX_SEED] in
  let solved :=
    if bool_decide (lower (solver_name v) ∈ MC_NAMES) then
      (Some (MonteCarlo_sample (run_MonteCarlo v) (run_sample v) g).1,
       [MonteCarlo_call (run_MonteCarlo v); sample_call (run_sample v) g])
    else if bool_decide (lower (solver_name v) ∈ EA_NAMES) then
      (Some (Evolutionary_optimize (run_Evolutionary v) (run_optimize v) g).1,
       [Evolutionary_call (run_Evolutionary v);
        optimize_call (run_optimize v) g])
    else (solver s, []) in
  ∃ s1, run s = animate (interval v) "log" s1
    ∧ vars s1 = (if fix_seed v then v else tk_set_seed n v)
    ∧ first_run s1 = false
    ∧ solver s1 = solved.1
    ∧ files s1 = files s
    ∧ anim s1 = anim s
    ∧ anim_running s1 = anim_running s
    ∧ log s1 = log s ++ pre
                     ++ [seed_call n; BenchmarkFunction_call (run_benchmark v)]
                     ++ solved.2.
Proof.
  intros Hc. unfold run, run_seed, run_MonteCarlo, run_sample,
    run_Evolutionary, run_optimize, run_benchmark.
  run_monad. rewrite Hc. cbn.
  destruct (first_run s) eqn:Hfr, (fix_seed (vars s)) eqn:Hfix; cbn;
    try destruct (np_random_randint _ _) as [n g'] eqn:Hr; cbn;
    rewrite ?Hfix; cbn;
    repeat (case_match; cbn; simplify_eq/=);
    (eexists; split; [reflexivity|]); cbn; rewrite ?Hfix; cbn;
    repeat split; try done.
  all: rewrite <- ?app_assoc; try done.
  all: by repeat match goal with
          | H : _ = (_, _) |- _ => rewrite H; clear H
          end.
Qed.

(** *** Population-size validation *)

Lemma check_variables_evolutionary s name least :
  bool_decide (upper (lower name) ∈ EAOPT) = true →
  MIN_POPSIZE !! lower name = Some least →
  upper (lower name) = name →
  solver_name (vars s) = name →
  (popsize (vars s) < least →
     check_variables s = (Ok false, error_shown (popsize_message name least) s))
  ∧ (least ≤ popsize (vars s) → check_variables s = (Ok true, s)).
Proof.
  intros Hin Hleast Hup Hname.
  rewrite check_variables_unfold. cbv zeta.
  rewrite Hname, Hin, Hleast, Hup.
  split; intros Hsize.
  - by rewrite bool_decide_eq_true_2.
  - rewrite bool_decide_eq_false_2; [done | lia].
Qed.

Lemma check_variables_other s :
  bool_decide (upper (lower (solver_name (vars s))) ∈ EAOPT) = false →
  check_variables s = (Ok true, s).
Proof. intros Hin. rewrite check_variables_unfold. cbv zeta. by rewrite Hin. Qed.

Lemma calls_check_variables s e :
  e ∈ calls check_variables s → is_solver_call e = false.
Proof.
  destruct (check_variables_cases s) as [H|[[msg H]|H]];
    unfold calls; rewrite H; cbn;
    rewrite ?drop_app_length, ?drop_all;
    [by intros ?%elem_of_nil | | by intros ?%elem_of_nil].
  by intros ->%list_elem_of_singleton.
Qed.

(** C1. For each of the selections CPSO, PSO, DE and CMAES,
    [check_variables] returns [False] after showing the error dialog when
    the population size is below the solver's minimum (2, 2, 4, 4), and
    returns [True] showing nothing otherwise; for Hastings and
    Hamiltonian it returns [True] whatever the population size; and a
    call that constructs or invokes a solver is made by [run] only when
    [check_variables] has returned [True]. *)
Theorem check_variables_popsize s name least :
  solver_name (vars s) = name →
  ((name, least) ∈ [("CPSO", 2); ("PSO", 2); ("DE", 4); ("CMAES", 4)] →
     (popsize (vars s) < least →
        check_variables s
        = (Ok false, error_shown (popsize_message name least) s))
     ∧ (least ≤ popsize (vars s) → check_variables s = (Ok true, s)))
  ∧ (name ∈ MCOPT → check_variables s = (Ok true, s))
  ∧ (∀ e, e ∈ calls run s → is_solver_call e = true →
          (check_variables s).1 = Ok true).
Proof.
  intros Hname. split; [|split].
  - intros Hin.
    repeat (apply elem_of_cons in Hin as [Hin|Hin]);
      [..|by apply elem_of_nil in Hin];
      injection Hin as -> ->;
      by apply check_variables_evolutionary; try by vm_compute.
  - intros Hin. apply check_variables_other. rewrite Hname.
    repeat (apply elem_of_cons in Hin as [->|Hin]);
      [..|by apply elem_of_nil in Hin]; by vm_compute.
  - intros e He Hsolver.
    destruct (check_variables_cases s) as [H|[[msg H]|H]];
      [by rewrite H|..];
      unfold calls in He; rewrite run_rejected in He by (by rewrite H);
      apply calls_check_variables in He; congruence.
Qed.

(** C5. When the population-size validation fails, [run] returns
    having only shown the dialog: it makes no other call (no benchmark
    function, no solver, no reseeding), and [first_run], the Tk
    variables (the seed among them), the random state, the solver object
    with its arrays and everything else are as before. *)
Theorem run_rejected_unchanged s :
  (check_variables s).1 = Ok false →
  ∃ msg s',
    run s = (Ok tt, s')
    ∧ s' = error_shown msg s
    ∧ calls run s = [showerror "Error" msg]
    ∧ first_run s' = first_run s
    ∧ vars s' = vars s
    ∧ np_random s' = np_random s
    ∧ bf s' = bf s
    ∧ solver s' = solver s
    ∧ anim s' = anim s
    ∧ files s' = files s.
Proof.
  intros Hfalse. rewrite (run_rejected_false s Hfalse).
  destruct (check_variables_cases s) as [H|[[msg H]|H]];
    rewrite H in Hfalse |- *; try done.
  exists msg, (error_shown msg s). repeat split.
  apply calls_app. by rewrite run_rejected_false, H by (by rewrite H).
Qed.

(** *** The step-size entry *)

Lemma _validate_stepsize_unfold val s :
  _validate_stepsize val s =
    match py_float val with
    | Some x =>
        (Ok true, set_vars (tk_set_log_stepsize (np_log10 x) (vars s)) s)
    | None => (Ok true, s)
    end.
Proof.
  unfold _validate_stepsize. run_monad.
  by destruct (py_float val).
Qed.

(** C10. [_validate_stepsize] returns [True] on every string, without
    raising; it sets [log_stepsize] to [np.log10] of the parsed number
    when the string parses as a float, whatever the number's sign, and
    leaves the state as it is when the string does not parse. *)
Theorem _validate_stepsize_total val s :
  _validate_stepsize val s =
    (Ok true,
     match py_float val with
     | Some x => set_vars (tk_set_log_stepsize (np_log10 x) (vars s)) s
     | None => s
     end).
Proof.
  rewrite _validate_stepsize_unfold. by destruct (py_float val).
Qed.

(** C2. On a string that does not parse as a float,
    [_validate_stepsize] raises nothing, leaves [log_stepsize] (and the
    rest of the state) unchanged and returns [True]. *)
Theorem _validate_stepsize_invalid val s :
  py_float val = None →
  _validate_stepsize val s = (Ok true, s)
  ∧ log_stepsize (vars (_validate_stepsize val s).2) = log_stepsize (vars s).
Proof.
  intros Hval. by rewrite _validate_stepsize_unfold, Hval.
Qed.

(** *** What the callbacks other than [run] leave alone *)

Lemma update_enerplot_frame i gfit s :
  let s' := (update_enerplot i gfit s).2 in
  first_run s' = first_run s ∧ solver s' = solver s ∧ anim s' = anim s
  ∧ log s' = log s.
Proof.
  unfold update_enerplot. run_monad.
  by repeat (case_match; cbn; simplify_eq/=).
Qed.

Lemma _update_monte_carlo_frame i models gfit s :
  let s' := (_update_monte_carlo i models gfit s).2 in
  first_run s' = first_run s ∧ solver s' = solver s ∧ anim s' = anim s
  ∧ log s' = log s.
Proof.
  unfold _update_monte_carlo. run_monad.
  repeat (case_match; cbn; simplify_eq/=); try done.
  match goal with
  | |- context [update_enerplot ?i ?g ?st] =>
      destruct (update_enerplot_frame i g st) as (-> & -> & -> & ->)
  end.
  done.
Qed.

Lemma _update_evolutionary_frame i models gfit s :
  let s' := (_update_evolutionary i models gfit s).2 in
  first_run s' = first_run s ∧ solver s' = solver s ∧ anim s' = anim s
  ∧ log s' = log s.
Proof.
  unfold _update_evolutionary. run_monad.
  repeat (case_match; cbn; simplify_eq/=); try done.
  match goal with
  | |- context [update_enerplot ?i ?g ?st] =>
      destruct (update_enerplot_frame i g st) as (-> & -> & -> & ->)
  end.
  done.
Qed.

Lemma frame_frame i s :
  let s' := (frame i s).2 in
  first_run s' = first_run s ∧ solver s' = solver s ∧ anim s' = anim s
  ∧ log s' = log s.
Proof.
  unfold frame. run_monad.
  destruct (anim s) as [a|] eqn:Ha; cbn; [|by rewrite Ha].
  rewrite <- Ha.
  destruct (anim_func a);
    [apply _update_monte_carlo_frame | apply _update_evolutionary_frame].
Qed.

Lemma _onClick_frame s :
  let s' := (_onClick s).2 in
  first_run s' = first_run s ∧ solver s' = solver s ∧ anim s' = anim s.
Proof.
  unfold _onClick. run_monad.
  by repeat (case_match; cbn; simplify_eq/=).
Qed.

Lemma export_models_frame chosen s :
  let s' := (export_models chosen s).2 in
  first_run s' = first_run s ∧ solver s' = solver s ∧ anim s' = anim s.
Proof.
  unfold export_models, _check_run, open_wb, pickle_dump. run_monad.
  by repeat (case_match; cbn; simplify_eq/=).
Qed.

Lemma export_fitness_frame chosen s :
  let s' := (export_fitness chosen s).2 in
  first_run s' = first_run s ∧ solver s' = solver s ∧ anim s' = anim s.
Proof.
  unfold export_fitness, _check_run, open_wb, pickle_dump. run_monad.
  by repeat (case_match; cbn; simplify_eq/=).
Qed.

Lemma _validate_stepsize_frame val s :
  let s' := (_validate_stepsize val s).2 in
  first_run s' = first_run s ∧ solver s' = solver s ∧ anim s' = anim s.
Proof.
  unfold _validate_stepsize. run_monad.
  by destruct (py_float val).
Qed.






(** *** The effect of a run that passes validation *)

Lemma check_variables_true s :
  (check_variables s).1 = Ok true → check_variables s = (Ok true, s).
Proof.
  by destruct (check_variables_cases s) as [H|[[msg H]|H]]; rewrite H.
Qed.

Lemma run_accepted_after s :
  (check_variables s).1 = Ok true →
  let s' := (run s).2 in
  seed (vars s') = run_seed s
  ∧ first_run s' = false
  ∧ solver s' = (run_solved s).1
  ∧ files s' = files s
  ∧ ∃ evs,
      calls run s =
        (if fix_seed (vars s) then [] else [randint_call MAX_SEED])
        ++ [seed_call (run_seed s);
            BenchmarkFunction_call (run_benchmark (vars s))]
        ++ (run_solved s).2 ++ evs
      ∧ Forall (λ e, e = timer_stop ∨ e = fig_clear) evs.
Proof.
  intros Hc%check_variables_true.
  destruct (run_accepted s Hc)
    as (s1 & Hrun & Hvars & Hfr & Hsolver & Hfiles & _ & _ & Hlog).
  destruct (animate_frame (interval (vars s)) "log" s1)
    as (Hv & Hf & _ & Hs & _ & Hfs & evs & Hl & Hevs).
  cbv zeta. unfold calls. rewrite Hrun, Hv, Hf, Hs, Hfs, Hl.
  repeat split; try done.
  - rewrite Hvars. unfold run_seed. by destruct (fix_seed (vars s)).
  - exists evs. split; [|done].
    by rewrite Hlog, <- !app_assoc, drop_app_length.
Qed.

Lemma filter_animate_calls (p : event → bool) evs :
  p timer_stop = false → p fig_clear = false →
  Forall (λ e, e = timer_stop ∨ e = fig_clear) evs →
  List.filter p evs = [].
Proof.
  intros H1 H2. induction 1 as [|e evs [->| ->] _ IH]; cbn;
    by rewrite ?H1, ?H2.
Qed.

Lemma run_accepted_solver_calls s :
  (check_variables s).1 = Ok true →
  List.filter is_solver_call (calls run s) = (run_solved s).2.
Proof.
  intros Hc.
  destruct (run_accepted_after s Hc) as (_ & _ & _ & _ & evs & -> & Hevs).
  rewrite !List.filter_app, (filter_animate_calls _ evs) by done.
  rewrite app_nil_r.
  unfold run_solved.
  by destruct (fix_seed (vars s)); repeat case_match.
Qed.

(** C4. In a run that passes validation, when the selection is
    Hastings or Hamiltonian the solver calls are exactly: the
    [MonteCarlo] constructor (on the benchmark function, with the
    iteration count and the clip flag), then its [sample] method (with
    the lower-cased name, the step size and the leap-frog count); when
    it is CPSO, PSO, DE or CMAES they are exactly: the [Evolutionary]
    constructor (with the population size, the iteration count and the
    clip flag), then its [optimize] method (with the lower-cased name,
    [snap = True] and the eight hyperparameters); and for a name that
    lower-cases to none of the six, no solver is constructed or
    invoked. *)
Theorem run_dispatch s :
  (check_variables s).1 = Ok true →
  let v := vars s in
  let name := lower (solver_name v) in
  let b := BenchmarkFunction (lower (join "_" (split (function v)))) 2 in
  let g := np_random_seed (run_seed s) in
  (solver_name v ∈ MCOPT →
     List.filter is_solver_call (calls run s) =
       [ MonteCarlo_call (MonteCarlo_new b (max_iter v) (clip v));
         sample_call (Sample_call name (stepsize v) (n_leap v)) g ])
  ∧ (solver_name v ∈ EAOPT →
     List.filter is_solver_call (calls run s) =
       [ Evolutionary_call
           (Evolutionary_new b (popsize v) (max_iter v) (clip v));
         optimize_call
           (Optimize_call name true (w v) (c1 v) (c2 v) (gamma v)
                          (CR v) (F v) (sigma v) (mu_perc v)) g ])
  ∧ (name ∉ MC_NAMES → name ∉ EA_NAMES →
     List.filter is_solver_call (calls run s) = []).
Proof.
  intros Hc. cbv zeta. rewrite (run_accepted_solver_calls s Hc).
  unfold run_solved. split; [|split].
  - intros Hin.
    assert (bool_decide (lower (solver_name (vars s)) ∈ MC_NAMES) = true)
      as -> ; [|done].
    repeat (apply elem_of_cons in Hin as [->|Hin]);
      [..|by apply elem_of_nil in Hin]; by vm_compute.
  - intros Hin.
    assert (bool_decide (lower (solver_name (vars s)) ∈ MC_NAMES) = false
            ∧ bool_decide (lower (solver_name (vars s)) ∈ EA_NAMES) = true)
      as [-> ->]; [|done].
    repeat (apply elem_of_cons in Hin as [->|Hin]);
      [..|by apply elem_of_nil in Hin]; by vm_compute.
  - intros H1 H2. by rewrite !bool_decide_eq_false_2.
Qed.

(** C7. The solver object, with its trajectory and fitness arrays, is
    left as it was by [animate], by the two frame updates (and the timer
    callback that calls them), by the two export actions, by a click and
    by a keystroke in the step-size entry, each whether it returns or
    raises, and by a run that fails validation.  A run that passes
    validation assigns it once, to what the one solver method it calls
    returns, or leaves it alone when the name matches no solver. *)
Theorem solver_assigned_by_run_only s :
  (∀ delay yscale, solver (animate delay yscale s).2 = solver s)
  ∧ (∀ i models gfit,
       solver (_update_monte_carlo i models gfit s).2 = solver s
       ∧ solver (_update_evolutionary i models gfit s).2 = solver s)
  ∧ (∀ i, solver (frame i s).2 = solver s)
  ∧ (∀ chosen,
       solver (export_models chosen s).2 = solver s
       ∧ solver (export_fitness chosen s).2 = solver s)
  ∧ solver (_onClick s).2 = solver s
  ∧ (∀ val, solver (_validate_stepsize val s).2 = solver s)
  ∧ ((check_variables s).1 ≠ Ok true → solver (run s).2 = solver s)
  ∧ ((check_variables s).1 = Ok true →
       let v := vars s in
       let name := lower (solver_name v) in
       let g := np_random_seed (run_seed s) in
       (name ∈ MC_NAMES →
          solver (run s).2
          = Some (MonteCarlo_sample (run_MonteCarlo v) (run_sample v) g).1
          ∧ List.filter is_solve (calls run s)
            = [sample_call (run_sample v) g])
       ∧ (name ∉ MC_NAMES → name ∈ EA_NAMES →
          solver (run s).2
          = Some (Evolutionary_optimize (run_Evolutionary v)
                                        (run_optimize v) g).1
          ∧ List.filter is_solve (calls run s)
            = [optimize_call (run_optimize v) g])
       ∧ (name ∉ MC_NAMES → name ∉ EA_NAMES →
          solver (run s).2 = solver s
          ∧ List.filter is_solve (calls run s) = [])).
Proof.
  repeat split; intros.
  - apply animate_frame.
  - apply _update_monte_carlo_frame.
  - apply _update_evolutionary_frame.
  - apply frame_frame.
  - apply export_models_frame.
  - apply export_fitness_frame.
  - apply _onClick_frame.
  - apply _validate_stepsize_frame.
  - rename H into Hno. rewrite (run_rejected s Hno).
    by destruct (check_variables_cases s) as [H|[[msg H]|H]]; rewrite H.
  - destruct (run_accepted_after s H) as (_ & _ & -> & _).
    unfold run_solved. by rewrite bool_decide_eq_true_2.
  - destruct (run_accepted_after s H) as (_ & _ & _ & _ & evs & -> & Hevs).
    rewrite !List.filter_app, (filter_animate_calls _ evs) by done.
    unfold run_solved. rewrite bool_decide_eq_true_2 by done.
    by destruct (fix_seed (vars s)).
  - destruct (run_accepted_after s H) as (_ & _ & -> & _).
    unfold run_solved. by rewrite bool_decide_eq_false_2, bool_decide_eq_true_2.
  - destruct (run_accepted_after s H) as (_ & _ & _ & _ & evs & -> & Hevs).
    rewrite !List.filter_app, (filter_animate_calls _ evs) by done.
    unfold run_solved.
    rewrite bool_decide_eq_false_2, bool_decide_eq_true_2 by done.
    by destruct (fix_seed (vars s)).
  - destruct (run_accepted_after s H) as (_ & _ & -> & _).
    unfold run_solved. by rewrite !bool_decide_eq_false_2.
  - destruct (run_accepted_after s H) as (_ & _ & _ & _ & evs & -> & Hevs).
    rewrite !List.filter_app, (filter_animate_calls _ evs) by done.
    unfold run_solved. rewrite !bool_decide_eq_false_2 by done.
    by destruct (fix_seed (vars s)).
Qed.

Lemma check_variables_vars s1 s2 :
  vars s1 = vars s2 → (check_variables s1).1 = (check_variables s2).1.
Proof.
  intros Hv. rewrite !check_variables_unfold. cbv zeta. rewrite Hv.
  by repeat case_match.
Qed.

(** C9. Provided [np.random.randint(MAX_SEED)] returns a number from 0
    up to but excluding [MAX_SEED], in a run that passes validation: with
    the box unchecked the seed variable ends as the number drawn, which
    lies between 0 and 999998; with the box checked it ends as it
    started; [np.random.seed] is called with the final value of the seed
    variable, no solver method is invoked before that call, and every
    solver method invoked after it starts from the random state that
    call produced.  Hence a second run from the same Tk variables with
    the box checked makes the same solver calls, from the same random
    state. *)
Theorem run_seeding s s2 :
  (∀ g, 0 ≤ (np_random_randint MAX_SEED g).1 < MAX_SEED) →
  (check_variables s).1 = Ok true →
  let n := seed (vars (run s).2) in
  (fix_seed (vars s) = false →
     n = (np_random_randint MAX_SEED (np_random s)).1 ∧ 0 ≤ n ≤ 999998)
  ∧ (fix_seed (vars s) = true → n = seed (vars s))
  ∧ (∃ before after,
       calls run s = before ++ seed_call n :: after
       ∧ Forall (λ e, is_solve e = false) before
       ∧ Forall (λ e, is_solve e = true →
                      rng_of e = Some (np_random_seed n)) after)
  ∧ (fix_seed (vars s) = true → vars s2 = vars s →
     List.filter is_solver_call (calls run s2)
     = List.filter is_solver_call (calls run s)).
Proof.
  intros Hrange Hc. cbv zeta.
  destruct (run_accepted_after s Hc) as (-> & _ & _ & _ & evs & Hcalls & Hevs).
  split; [|split; [|split]].
  - intros Hfix. unfold run_seed. rewrite Hfix. split; [done|].
    specialize (Hrange (np_random s)). unfold MAX_SEED in *. lia.
  - intros Hfix. unfold run_seed. by rewrite Hfix.
  - eexists _, _. split; [exact Hcalls|]. split.
    + by destruct (fix_seed (vars s)); repeat constructor.
    + apply Forall_cons_2; [done|]. apply Forall_app_2.
      * unfold run_solved. repeat case_match; by repeat constructor.
      * eapply Forall_impl; [exact Hevs|]. by intros e [-> | ->].
  - intros Hfix Hv.
    assert ((check_variables s2).1 = Ok true) as Hc2
      by (by rewrite (check_variables_vars s2 s)).
    rewrite !run_accepted_solver_calls by done.
    unfold run_solved, run_seed. rewrite Hv, Hfix.
    by repeat case_match.
Qed.

(** *** Export *)


(** *** The global-best curve *)

Lemma and_then_Ok {A B} (a : A) (f : A → result B) :
  and_then (Ok a) f = f a.
Proof. done. Qed.

Lemma concat_singletons {A} (l : list A) (idx : nat → nat) (ks : list nat) :
  (∀ k, k ∈ ks → (idx k < length l)%nat) →
  length (concat (map (λ k, take 1 (drop (idx k) l)) ks)) = length ks
  ∧ ∀ j, concat (map (λ k, take 1 (drop (idx k) l)) ks) !! j
         = ks !! j ≫= λ k, l !! idx k.
Proof.
  induction ks as [|a ks IH]; intros Hks; [by split; [|intros []]|].
  destruct IH as [IHlen IHget].
  { intros k Hk. apply Hks. by right. }
  destruct (lookup_lt_is_Some_2 l (idx a)) as [x Hx].
  { apply Hks. by left. }
  assert (take 1 (drop (idx a) l) = [x]) as Hhd
    by (by rewrite (drop_S _ _ _ Hx)).
  cbn [map concat]. rewrite Hhd. split.
  - rewrite length_app, IHlen. done.
  - intros [|j]; [by cbn; rewrite Hx|apply IHget].
Qed.

Section Matrix.
Variables (energy : ndarray float) (m n : nat).
Hypothesis Hshape : shape energy = [m; n].
Hypothesis Hwf : wf_ndarray energy.

Lemma index_axis1_matrix i :
  (i < n)%nat →
  index_axis1 energy i
  = Ok (NDArray [m]
          (concat (map (λ k, take 1 (drop (k * n + i) (data energy)))
                       (seq 0 m)))).
Proof.
  intros Hi. unfold index_axis1. rewrite Hshape.
  rewrite decide_True by done. cbn. do 3 f_equal.
  apply map_ext. intros k. by rewrite Nat.mul_1_r.
Qed.

Lemma column_entries i :
  (i < n)%nat →
  length (column energy i) = m
  ∧ ∀ k, (k < m)%nat →
         column energy i !! k = data energy !! (k * n + i)%nat.
Proof.
  intros Hi. unfold column. rewrite index_axis1_matrix by done. cbn.
  destruct (concat_singletons (data energy) (λ k, k * n + i)%nat (seq 0 m))
    as [Hlen Hget].
  { intros k [_ Hk]%elem_of_seq. red in Hwf. rewrite Hwf, Hshape. cbn. nia. }
  split; [by rewrite Hlen, length_seq|].
  intros k Hk. by rewrite Hget, lookup_seq_lt.
Qed.

Lemma column_min_matrix i :
  (0 < m)%nat → (i < n)%nat →
  column_min energy i = Ok (np_min (column energy i)).
Proof.
  intros Hm Hi. destruct (column_entries i Hi) as [Hlen _].
  unfold column_min, column in *.
  rewrite index_axis1_matrix in * by done.
  unfold and_then, mbind, result_bind, ndarray_min. cbn in *.
  destruct (concat _); [cbn in Hlen; lia|done].
Qed.

(** The loop of [_gfit] from index [a] on, [j] more rounds. *)
Lemma _gfit_loop j : ∀ a acc,
  (0 < m)%nat → length acc = a → (1 ≤ a)%nat → (a + j ≤ n)%nat →
  ∃ g,
    for_each
      (λ gfit i,
         prev ← or_raise IndexError (gfit !! (i - 1)%nat);
         mi ← column_min energy i;
         Ok (gfit ++ [py_min prev mi]))
      (seq a j) acc = Ok g
    ∧ length g = (a + j)%nat
    ∧ (∀ i, (i < a)%nat → g !! i = acc !! i)
    ∧ (∀ i prev, (a ≤ i < a + j)%nat → g !! (i - 1)%nat = Some prev →
         g !! i = Some (py_min prev (np_min (column energy i)))).
Proof.
  induction j as [|j IH]; intros a acc Hm Hlen Ha Hn.
  { exists acc. cbn. repeat split; [lia|intros; lia]. }
  destruct (lookup_lt_is_Some_2 acc (a - 1)) as [prev Hprev]; [lia|].
  cbn [seq for_each]. rewrite Hprev. cbn [or_raise].
  rewrite and_then_Ok, column_min_matrix, !and_then_Ok by lia.
  set (acc' := acc ++ [py_min prev (np_min (column energy a))]).
  destruct (IH (S a) acc') as (g & Hg & Hglen & Hkeep & Hrec);
    [done | subst acc'; rewrite length_app; cbn; lia | lia | lia |].
  exists g. split; [exact Hg|]. split; [lia|]. split.
  - intros i Hi. rewrite Hkeep by lia. subst acc'.
    by rewrite lookup_app_l by lia.
  - intros i p Hi Hp. destruct (decide (i = a)) as [->|Hne].
    + rewrite Hkeep in Hp |- * by lia. subst acc'.
      rewrite lookup_app_l in Hp by lia.
      rewrite lookup_app_r by lia.
      replace (a - length acc)%nat with 0%nat by lia. cbn.
      congruence.
    + apply Hrec; [lia|done].
Qed.

End Matrix.

(** C8, amended. For a fitness matrix with at least one row and at
    least one column, [_gfit] returns an array with one entry per
    column; entry 0 is the minimum of column 0 and entry [i], for
    [i ≥ 1], is Python's [min] of entry [i - 1] and the minimum of column
    [i], a column minimum being what [ndarray.min()] gives on the
    column's entries; and, [<] on floats being asymmetric, no entry is
    greater than the one before it. *)
Theorem _gfit_running_minimum energy m n :
  (∀ x y, flt x y = true → flt y x = false) →
  shape energy = [m; n] → wf_ndarray energy → (0 < m)%nat → (0 < n)%nat →
  ∃ g, _gfit energy = Ok (NDArray [n] g)
    ∧ length g = n
    ∧ (∀ i, (i < n)%nat →
         length (column energy i) = m
         ∧ ∀ k, (k < m)%nat →
                column energy i !! k = data energy !! (k * n + i)%nat)
    ∧ g !! 0%nat = Some (np_min (column energy 0))
    ∧ (∀ i prev, (1 ≤ i < n)%nat → g !! (i - 1)%nat = Some prev →
         g !! i = Some (py_min prev (np_min (column energy i))))
    ∧ (∀ i a b, g !! i = Some a → g !! S i = Some b → flt a b = false).
Proof.
  intros Hasym Hshape Hwf Hm Hn.
  destruct (_gfit_loop energy m n Hshape Hwf (n - 1) 1
              [np_min (column energy 0)])
    as (g & Hg & Hlen & Hkeep & Hrec); [done | done | lia | lia |].
  replace (1 + (n - 1))%nat with n in * by lia.
  exists g. split; [|split; [done|split; [|split; [|split]]]].
  - unfold _gfit.
    rewrite (column_min_matrix energy m n), and_then_Ok by done.
    unfold shape_at. rewrite Hshape. cbn [lookup list_lookup or_raise].
    rewrite and_then_Ok, Hg, and_then_Ok. unfold np_array.
    by rewrite Hlen.
  - intros i Hi. by apply column_entries.
  - by rewrite Hkeep by lia.
  - intros i prev Hi. by apply Hrec.
  - intros i a b Ha Hb.
    assert (S i < n)%nat as Hi by (rewrite <- Hlen; by eapply lookup_lt_Some).
    specialize (Hrec (S i) a). rewrite Nat.sub_1_r in Hrec. cbn in Hrec.
    rewrite Hrec in Hb by (done || lia). injection Hb as <-.
    unfold py_min. destruct (flt _ a) eqn:Hlt; [by apply Hasym|].
    destruct (flt a a) eqn:Haa; [|done]. by rewrite (Hasym a a Haa) in Haa.
Qed.

(** ** Further properties *)

(** *** Validation on any name *)















(** *** More on the global-best curve *)































End Properties.

(** *** Concrete runs, over the integers *)

Example lower_upper_names :
  map lower EAOPT = EA_NAMES ∧ map lower MCOPT = MC_NAMES
  ∧ map upper EA_NAMES = EAOPT.
Proof. vm_compute. repeat split. Qed.

Example function_name_example :
  lower (join "_" (split "Quartic noise")) = "quartic_noise".
Proof. reflexivity. Qed.

Example popsize_message_example :
  popsize_message "DE" 4
  = "For DE, population size should be greater than 3.".
Proof. reflexivity. Qed.

Example _gfit_example :
  _gfit sample_energy = Ok (NDArray [3%nat] [4; 3; 1]).
Proof. reflexivity. Qed.

Example column_example : column sample_energy 1 = [3; 7].
Proof. reflexivity. Qed.

Example run_first_example :
  first_run sample_ran = false ∧ anim_running sample_ran = true
  ∧ calls run (sample_gui "DE" 4 true)
    = [ seed_call 42;
        BenchmarkFunction_call (BenchmarkFunction "rosenbrock" 2);
        Evolutionary_call
          (Evolutionary_new (BenchmarkFunction "rosenbrock" 2) 4 3 false);
        optimize_call
          (Optimize_call "de" true 72 149 149 125 50 100 100 50) 42;
        fig_clear ].
Proof. repeat split. Qed.

Example click_twice_example :
  calls _onClick sample_ran = [timer_stop]
  ∧ calls _onClick (_onClick sample_ran).2 = [timer_start].
Proof. split; reflexivity. Qed.


Lemma check_variables_popsize_witness :
  check_variables (sample_gui "DE" 3 true)
  = (Ok false,
     error_shown (popsize_message "DE" 4) (sample_gui "DE" 3 true)).
Proof.
  apply (check_variables_popsize (sample_gui "DE" 3 true) "DE" 4 eq_refl).
  - do 2 right. left.
  - reflexivity.
Defined.

Lemma run_rejected_unchanged_witness :
  ∃ msg, run (sample_gui "DE" 3 true)
         = (Ok tt, error_shown msg (sample_gui "DE" 3 true)).
Proof.
  destruct (run_rejected_unchanged (sample_gui "DE" 3 true))
    as (msg & s' & Hrun & -> & _).
  - vm_compute. reflexivity.
  - exists msg. exact Hrun.
Defined.

Lemma _validate_stepsize_invalid_witness :
  _validate_stepsize "1x" (sample_gui "Hastings" 3 true)
  = (Ok true, sample_gui "Hastings" 3 true).
Proof.
  apply (_validate_stepsize_invalid "1x" (sample_gui "Hastings" 3 true)).
  reflexivity.
Defined.


Lemma run_dispatch_witness :
  List.filter is_solver_call (calls run (sample_gui "Hastings" 3 true))
  = [ MonteCarlo_call
        (MonteCarlo_new (BenchmarkFunction "rosenbrock" 2) 3 false);
      sample_call (Sample_call "hastings" 1 10) 42 ].
Proof.
  apply (run_dispatch (sample_gui "Hastings" 3 true)).
  - vm_compute. reflexivity.
  - left.
Defined.


Lemma solver_assigned_by_run_only_witness :
  solver (run (sample_gui "Hastings" 3 true)).2
  = Some (MonteCarlo_sample
            (run_MonteCarlo (vars (sample_gui "Hastings" 3 true)))
            (run_sample (vars (sample_gui "Hastings" 3 true)))
            (np_random_seed (run_seed (sample_gui "Hastings" 3 true)))).1.
Proof.
  apply (solver_assigned_by_run_only (sample_gui "Hastings" 3 true)).
  - vm_compute. reflexivity.
  - left.
Defined.

Lemma integer_flt_asymmetric (x y : Z) :
  flt (Collaborators := integer_world) x y = true →
  flt (Collaborators := integer_world) y x = false.
Proof. cbn. lia. Qed.

Lemma _gfit_running_minimum_witness :
  ∃ g, _gfit sample_energy = Ok (NDArray [3%nat] g)
    ∧ g !! 0%nat = Some (np_min (column sample_energy 0)).
Proof.
  destruct (_gfit_running_minimum sample_energy 2 3)
    as (g & Hg & _ & _ & H0 & _).
  - exact integer_flt_asymmetric.
  - reflexivity.
  - reflexivity.
  - lia.
  - lia.
  - exists g. split; [exact Hg | exact H0].
Defined.

(** C8, as stated, fails on a matrix with columns but no rows: the
    first column is empty, and its [min()] raises [ValueError]. *)
Lemma _gfit_no_rows :
  shape empty_energy = [0; 3]%nat
  ∧ wf_ndarray empty_energy
  ∧ _gfit empty_energy = Raise ValueError
  ∧ ¬ ∃ g, _gfit empty_energy = Ok g.
Proof.
  repeat split. intros [g Hg]. vm_compute in Hg. discriminate.
Qed.

Lemma integer_randint_range (g : Z) :
  0 ≤ (np_random_randint (Collaborators := integer_world) MAX_SEED g).1
    < MAX_SEED.
Proof. cbn. apply Z.mod_pos_bound. reflexivity. Qed.

Lemma run_seeding_witness :
  seed (vars (run (sample_gui "Hastings" 3 false)).2)
  = (np_random_randint MAX_SEED (np_random (sample_gui "Hastings" 3 false))).1
  ∧ 0 ≤ seed (vars (run (sample_gui "Hastings" 3 false)).2) ≤ 999998.
Proof.
  apply (run_seeding (sample_gui "Hastings" 3 false)
                     (sample_gui "Hastings" 3 false)).
  - exact integer_randint_range.
  - vm_compute. reflexivity.
  - reflexivity.
Defined.

(** *** Exports and clicks after a run that raised

    [run] clears [first_run] before it seeds the generator, builds the
    benchmark function and the solver, and animates.  When one of these
    raises, [first_run] is [False] although neither [self.solver] nor
    [self.anim] exists. *)

(** C3. After a first run that raised, [first_run] is [False] and there
    is no solver: [export_models] and [export_fitness] do not show
    "No optimization performed yet.", they show the save dialog, open
    the chosen file for writing and raise [AttributeError] at
    [self.solver].  A file that held an array from an earlier session
    is left empty, and no array is written. *)
Theorem export_after_failed_run :
  (run sample_beside).1 = Raise AttributeError
  ∧ first_run sample_beside_failed = false
  ∧ solver sample_beside_failed = None
  ∧ files sample_beside_failed !! "old.pickle" = Some [sample_energy]
  ∧ export_models "old.pickle" sample_beside_failed
    = (Raise AttributeError,
       set_files (<["old.pickle" := []]> (files sample_beside_failed))
                 (asked "Export models" sample_beside_failed))
  ∧ export_fitness "old.pickle" sample_beside_failed
    = (Raise AttributeError,
       set_files (<["old.pickle" := []]> (files sample_beside_failed))
                 (asked "Export fitness" sample_beside_failed))
  ∧ files (export_models "old.pickle" sample_beside_failed).2 !! "old.pickle"
    = Some [].
Proof. repeat split. Qed.

(** C6. After a first run that raised, [first_run] is [False] and there
    is no animation: a click on the figure does not toggle
    [anim_running], it raises [AttributeError] at [self.anim] and
    leaves the state as it was, without a call to the timer. *)
Theorem _onClick_after_failed_run :
  (run (sample_gui "Simplex" 4 true)).1 = Raise AttributeError
  ∧ first_run sample_failed = false
  ∧ anim_running sample_failed = false
  ∧ anim sample_failed = None
  ∧ _onClick sample_failed = (Raise AttributeError, sample_failed)
  ∧ calls _onClick sample_failed = [].
Proof. repeat split. Qed.

(** *** Instances of the further properties *)















End StochOGUI.
